(** * Inverse geometry notebook (1_invgeom.ipynb)

    A shallow embedding of the notebook's code cells: the pose error
    function [error], the visualisation [callback], the symbolic residual
    [error_tool] with its objective [totalcost], and the two optimisation
    cells ([fmin_bfgs] and the IPOPT [try]/[except] cell).

    Numbers are real numbers ([R]); the notebook's global names live in a
    record [Globals] that every cell threads through a state-and-exception
    monad [Py]; the libraries the notebook calls (pinocchio, casadi,
    scipy, meshcat) enter as interfaces. *)

From Stdlib Require Import Reals List String Lia Lra Bool Arith.
Import ListNotations.
Local Open Scope R_scope.

(** ** Python control flow: exceptions and mutable globals *)

(** The exceptions that can travel through the notebook's cells.  The last
    two derive from [BaseException] only; a bare [except:] still catches
    them. *)
Inductive PyExc : Type :=
| ValueError
| IndexError
| RuntimeError (msg : string)
| KeyboardInterrupt
| SystemExit.

Inductive Outcome (A : Type) : Type :=
| Ok (a : A)
| Raise (e : PyExc).
Arguments Ok {A} a.
Arguments Raise {A} e.

(** A statement run in state [S]: it returns or raises, and in both cases
    the state it has written so far stays written. *)
Definition Py (S A : Type) : Type := S -> Outcome A * S.

Definition ret {S A} (a : A) : Py S A := fun s => (Ok a, s).

Definition raise {S A} (e : PyExc) : Py S A := fun s => (Raise e, s).

Definition bind {S A B} (c : Py S A) (k : A -> Py S B) : Py S B :=
  fun s =>
    match c s with
    | (Ok a, s') => k a s'
    | (Raise e, s') => (Raise e, s')
    end.

(** [try: body / except: handler], with the bare handler of the source:
    it does not look at the exception it intercepts. *)
Definition try_except {S A} (body handler : Py S A) : Py S A :=
  fun s =>
    match body s with
    | (Ok a, s') => (Ok a, s')
    | (Raise _, s') => handler s'
    end.

Definition gets {S A} (f : S -> A) : Py S A := fun s => (Ok (f s), s).

Definition modify {S} (f : S -> S) : Py S unit := fun s => (Ok tt, f s).

Declare Scope py_scope.
Delimit Scope py_scope with py.
Notation "x <- c ;; k" := (bind c (fun x => k))
  (at level 61, c at next level, right associativity) : py_scope.
Notation "c ;;; k" := (bind c (fun _ => k))
  (at level 61, right associativity) : py_scope.
Local Open Scope py_scope.

Definition returns {S A} (c : Py S A) (s : S) (a : A) : Prop :=
  fst (c s) = Ok a.

Definition raises {S A} (c : Py S A) (s : S) (e : PyExc) : Prop :=
  fst (c s) = Raise e.

(** ** Vectors and norms *)

Definition Config : Type := list R.

Record Vector3 : Type := mkVector3 { vx : R; vy : R; vz : R }.

Record Matrix3 : Type := mkMatrix3 { row1 : Vector3; row2 : Vector3; row3 : Vector3 }.

(** A spatial motion (twist): linear part first, angular part second, which
    is the order of [.vector]. *)
Record Motion : Type := mkMotion { linear : Vector3; angular : Vector3 }.

Definition vector (m : Motion) : list R :=
  [vx (linear m); vy (linear m); vz (linear m);
   vx (angular m); vy (angular m); vz (angular m)].

Definition Motion_Zero : Motion :=
  mkMotion (mkVector3 0 0 0) (mkVector3 0 0 0).

(** [casadi.sumsqr]: the sum of the squares of the entries. *)
Fixpoint sumsqr (v : list R) : R :=
  match v with
  | [] => 0
  | x :: r => x * x + sumsqr r
  end.

(** [numpy.linalg.norm] of a one-dimensional array: the 2-norm. *)
Definition norm (v : list R) : R := sqrt (sumsqr v).

Inductive Axis : Type := AxisX | AxisY | AxisZ.

(** [pin.utils.rotate(axis, ang)]: the matrix of the rotation by [ang]
    about a coordinate axis. *)
Definition rotate (a : Axis) (ang : R) : Matrix3 :=
  let c := cos ang in
  let s := sin ang in
  match a with
  | AxisX => mkMatrix3 (mkVector3 1 0 0) (mkVector3 0 c (- s)) (mkVector3 0 s c)
  | AxisY => mkMatrix3 (mkVector3 c 0 s) (mkVector3 0 1 0) (mkVector3 (- s) 0 c)
  | AxisZ => mkMatrix3 (mkVector3 c (- s) 0) (mkVector3 s c 0) (mkVector3 0 0 1)
  end.

(** ** The pinocchio interface *)

(** What the notebook uses of [pin.SE3]: construction from a rotation and
    a translation, composition [a * b], [a.inverse()], the homogeneous
    matrix [a.np] and the logarithm [pin.log(a)]. *)
Class Pinocchio (SE3 : Type) : Type := {
  SE3_Identity : SE3;
  SE3_make : Matrix3 -> Vector3 -> SE3;
  SE3_mul : SE3 -> SE3 -> SE3;
  SE3_inverse : SE3 -> SE3;
  SE3_np : SE3 -> list (list R);
  pin_log : SE3 -> Motion
}.

(** Modelled from the spec: the forward-kinematics oracle.  A frame of the
    model is its name together with the map from a configuration to the
    frame's placement in the world, which is fixed by the model's link
    transforms and joint types. *)
Record Frame (SE3 : Type) : Type := mkFrame {
  name : string;
  placement_at : Config -> SE3
}.
Arguments mkFrame {SE3} name placement_at.
Arguments name {SE3} f.
Arguments placement_at {SE3} f q.

Record Model (SE3 : Type) : Type := mkModel {
  nq : nat;
  frames : list (Frame SE3)
}.
Arguments mkModel {SE3} nq frames.
Arguments nq {SE3} m.
Arguments frames {SE3} m.

(** The kinematic cache: [data.oMf] holds one placement per frame. *)
Record Data (SE3 : Type) : Type := mkData {
  oMf : list SE3
}.
Arguments mkData {SE3} oMf.
Arguments oMf {SE3} d.

(** The meshcat viewer: the transform last set on each named node, and the
    configuration last displayed. *)
Record Viz : Type := mkViz {
  node_transform : string -> option (list (list R));
  displayed : option Config
}.

(** The notebook's global names and the world its cells write to. *)
Record Globals (SE3 : Type) : Type := mkGlobals {
  model : Model SE3;
  data : Data SE3;
  tool_id : nat;
  transform_target_to_world : SE3;
  viz : Viz;
  slept : R;
  stdout : list string;
  opti_debug : Config;
  opti_solution : option Config
}.
Arguments mkGlobals {SE3}.
Arguments model {SE3} g.
Arguments data {SE3} g.
Arguments tool_id {SE3} g.
Arguments transform_target_to_world {SE3} g.
Arguments viz {SE3} g.
Arguments slept {SE3} g.
Arguments stdout {SE3} g.
Arguments opti_debug {SE3} g.
Arguments opti_solution {SE3} g.

Section Notebook.

Context {SE3 : Type} {pin : Pinocchio SE3}.

Definition set_data (d : Data SE3) (g : Globals SE3) : Globals SE3 :=
  mkGlobals (model g) d (tool_id g) (transform_target_to_world g)
            (viz g) (slept g) (stdout g) (opti_debug g) (opti_solution g).

Definition set_viz (v : Viz) (g : Globals SE3) : Globals SE3 :=
  mkGlobals (model g) (data g) (tool_id g) (transform_target_to_world g)
            v (slept g) (stdout g) (opti_debug g) (opti_solution g).

Definition set_slept (t : R) (g : Globals SE3) : Globals SE3 :=
  mkGlobals (model g) (data g) (tool_id g) (transform_target_to_world g)
            (viz g) t (stdout g) (opti_debug g) (opti_solution g).

Definition set_stdout (o : list string) (g : Globals SE3) : Globals SE3 :=
  mkGlobals (model g) (data g) (tool_id g) (transform_target_to_world g)
            (viz g) (slept g) o (opti_debug g) (opti_solution g).

Definition set_opti_debug (q : Config) (g : Globals SE3) : Globals SE3 :=
  mkGlobals (model g) (data g) (tool_id g) (transform_target_to_world g)
            (viz g) (slept g) (stdout g) q (opti_solution g).

Definition set_opti_solution (x : option Config) (g : Globals SE3) : Globals SE3 :=
  mkGlobals (model g) (data g) (tool_id g) (transform_target_to_world g)
            (viz g) (slept g) (stdout g) (opti_debug g) x.

(** [l[i]] on a Python list: [IndexError] past the end. *)
Definition getitem {A} (l : list A) (i : nat) : Py (Globals SE3) A :=
  match nth_error l i with
  | Some a => ret a
  | None => raise IndexError
  end.

(** [print(s)]. *)
Definition print (s : string) : Py (Globals SE3) unit :=
  modify (fun g => set_stdout (stdout g ++ [s]) g).

(** [time.sleep(t)]. *)
Definition time_sleep (t : R) : Py (Globals SE3) unit :=
  modify (fun g => set_slept (slept g + t) g).

(** Modelled from the spec: [model.getFrameId(name)], the position of the
    first frame of that name in the frame table, and the size of the table
    when there is none. *)
Fixpoint index_of (n : string) (l : list (Frame SE3)) : nat :=
  match l with
  | [] => O
  | f :: r => if String.eqb (name f) n then O else S (index_of n r)
  end.

Definition getFrameId (m : Model SE3) (n : string) : nat :=
  index_of n (frames m).

(** Modelled from the spec: [pin.framesForwardKinematics(model, data, q)].
    It accepts a configuration of length [nq] only, and then overwrites
    every entry of [data.oMf] with the placement of that frame at [q]. *)
Definition framesForwardKinematics (m : Model SE3) (d : Data SE3) (q : Config)
  : Outcome (Data SE3) :=
  if Nat.eqb (List.length q) (nq m)
  then Ok (mkData (map (fun f => placement_at f q) (frames m)))
  else Raise ValueError.

(** The call as a statement: [data] is one shared object, updated in place. *)
Definition pin_framesForwardKinematics (q : Config) : Py (Globals SE3) unit :=
  fun g =>
    match framesForwardKinematics (model g) (data g) q with
    | Ok d => (Ok tt, set_data d g)
    | Raise e => (Raise e, g)
    end.

(** [viewer[path].set_transform(T)]. *)
Definition set_transform (path : string) (T : list (list R)) : Py (Globals SE3) unit :=
  modify (fun g =>
    set_viz (mkViz (fun p => if String.eqb p path then Some T
                             else node_transform (viz g) p)
                   (displayed (viz g))) g).

(** [viz.display(q)]. *)
Definition viz_display (q : Config) : Py (Globals SE3) unit :=
  modify (fun g => set_viz (mkViz (node_transform (viz g)) (Some q)) g).

(** *** Cell [invgeom_task_params] *)

Definition invgeom_task_params (m : Model SE3) (d : Data SE3) (v : Viz)
  : Globals SE3 :=
  mkGlobals m d
    (getFrameId m "tool0")
    (SE3_make (rotate AxisX (PI / 4)) (mkVector3 (-0.5) 0.1 0.2))
    v 0 [] [] None.

(** *** Cell [invgeom_error_function] *)

Definition error (q : Config) : Py (Globals SE3) R :=
  pin_framesForwardKinematics q ;;;
  oMf_now <- gets (fun g => oMf (data g)) ;;
  i <- gets tool_id ;;
  transform_tool_to_world <- getitem oMf_now i ;;
  target <- gets transform_target_to_world ;;
  ret (norm (vector
        (pin_log (SE3_mul (SE3_inverse transform_tool_to_world) target)))).

(** *** Cell [invgeom_visualizer_callback] *)

Definition callback (q : Config) : Py (Globals SE3) unit :=
  pin_framesForwardKinematics q ;;;
  oMf_now <- gets (fun g => oMf (data g)) ;;
  i <- gets tool_id ;;
  transform_frame_to_world <- getitem oMf_now i ;;
  target <- gets transform_target_to_world ;;
  set_transform "target" (SE3_np target) ;;;
  set_transform "current" (SE3_np transform_frame_to_world) ;;;
  viz_display q ;;;
  time_sleep 1e-1.

(** *** The optimisers *)

(** An optimiser is known to the notebook only through the calls it makes:
    it asks for the objective at a trial configuration and goes on with the
    value it gets, it reports an iterate to the callback, and in the end it
    returns a configuration or raises. *)
Inductive Optimizer : Type :=
| Stop (x : Config)
| Fail (e : PyExc)
| Objective (q : Config) (k : R -> Optimizer)
| Iterate (q : Config) (k : Optimizer).

Fixpoint drive (f : Config -> Py (Globals SE3) R)
               (cb : Config -> Py (Globals SE3) unit)
               (o : Optimizer) : Py (Globals SE3) Config :=
  match o with
  | Stop x => ret x
  | Fail e => raise e
  | Objective q k => bind (f q) (fun y => drive f cb (k y))
  | Iterate q k => bind (cb q) (fun _ => drive f cb k)
  end.

(** The same run with no callback installed. *)
Definition no_callback (q : Config) : Py (Globals SE3) unit := ret tt.

(** *** Cell [invgeom_fmin_bfgs] *)

Definition qguess : Config := [0.12; -2.2; -1.45; 1.82; -0.95; 0.17].

Definition invgeom_fmin_bfgs (fmin_bfgs : Config -> Optimizer)
  : Py (Globals SE3) Config :=
  drive error callback (fmin_bfgs qguess).

End Notebook.

(** ** The casadi interface *)

(** [pinocchio.casadi] is pinocchio over symbolic scalars: its model,
    placements and motions hold [casadi.SX] expressions.  [SX_sym] is
    [casadi.SX.sym(name, n, 1)]; [cpin_framesForwardKinematics cmodel cq] is
    [cdata.oMf] after the call on that model and that symbol;
    [casadi_Function x y] is [casadi.Function(_, [x], [y])], as a map from
    the number array it is called on to the array it returns. *)
Class CasadiPinocchio (SE3 : Type) : Type := {
  SX : Type;
  cModel : Type;
  cSE3 : Type;
  cMotion : Type;
  SX_sym : string -> nat -> SX;
  cpin_Model : Model SE3 -> cModel;
  cpin_framesForwardKinematics : cModel -> SX -> list cSE3;
  cpin_SE3 : SE3 -> cSE3;
  cSE3_mul : cSE3 -> cSE3 -> cSE3;
  cSE3_inverse : cSE3 -> cSE3;
  cpin_log6 : cSE3 -> cMotion;
  cvector : cMotion -> SX;
  casadi_Function : SX -> SX -> Config -> list R
}.

Section CasadiNotebook.

Context {SE3 : Type} {pin : Pinocchio SE3} {cas : CasadiPinocchio SE3}.

(** *** Cells [invgeom_casadi_model], [invgeom_cq], [invgeom_casadi_fk] *)

Definition cq (m : Model SE3) : SX := SX_sym "q" (nq m).

Definition cdata_oMf (m : Model SE3) : list cSE3 :=
  cpin_framesForwardKinematics (cpin_Model m) (cq m).

(** *** Cell [invgeom_casadi_error] *)

(** Building the function reads [tool_id] and the target once; what it
    returns is the function object, here the map it computes. *)
Definition error_tool : Py (Globals SE3) (Config -> list R) :=
  m <- gets model ;;
  i <- gets tool_id ;;
  tool <- getitem (cdata_oMf m) i ;;
  target <- gets transform_target_to_world ;;
  ret (casadi_Function (cq m)
         (cvector (cpin_log6 (cSE3_mul (cSE3_inverse tool) (cpin_SE3 target))))).

(** *** Cell [invgeom_casadi_computation_graph] *)

(** [totalcost] is an expression in [var_q]; it is embedded as its value
    at a value of [var_q]. *)
Definition totalcost (etool : Config -> list R) (var_q : Config) : R :=
  sumsqr (etool var_q).

End CasadiNotebook.

Section IpoptCell.

Context {SE3 : Type} {pin : Pinocchio SE3}.

(** *** Cell [invgeom_ipopt] *)

(** Modelled from the spec: the [casadi.Opti] object.  The solver writes
    each iterate to the debug trace, from which [opti.debug.value(var_q)]
    reads at any time; [opti.value(var_q)] reads the solution, which exists
    only after a solve that returned. *)
Definition opti_debug_value : Py (Globals SE3) Config := gets opti_debug.

Definition opti_value : Py (Globals SE3) Config :=
  fun g =>
    match opti_solution g with
    | Some x => (Ok x, g)
    | None => (Raise (RuntimeError "no solution"), g)
    end.

(** [opti.callback(lambda i: callback(opti.debug.value(var_q)))], fired
    by the solver once the iterate [q] is in the trace. *)
Definition opti_callback (q : Config) : Py (Globals SE3) unit :=
  modify (set_opti_debug q) ;;;
  v <- opti_debug_value ;;
  callback v.

Definition opti_solve_limited (cost : Config -> R) (ipopt : Optimizer)
  : Py (Globals SE3) Config :=
  x <- drive (fun q => ret (cost q)) opti_callback ipopt ;;
  modify (set_opti_debug x) ;;;
  modify (set_opti_solution (Some x)) ;;;
  ret x.

Definition diagnostic : string := "ERROR in convergence, plotting debug info.".

(** The [try]/[except] statement of the cell, over whatever the three
    calls on [opti] do; its value is [sol_q]. *)
Definition invgeom_ipopt_try {Sol : Type}
    (solve_limited : Py (Globals SE3) Sol)
    (value debug_value : Py (Globals SE3) Config)
  : Py (Globals SE3) Config :=
  try_except
    (sol <- solve_limited ;;
     value)
    (print diagnostic ;;;
     debug_value).

Definition invgeom_ipopt (cost : Config -> R) (ipopt : Optimizer)
  : Py (Globals SE3) Config :=
  invgeom_ipopt_try (opti_solve_limited cost ipopt) opti_value opti_debug_value.

(** [model.createData()]: a cache with every placement at the identity. *)
Definition createData (m : Model SE3) : Data SE3 :=
  mkData (map (fun _ => SE3_Identity) (frames m)).

(** Two states of the notebook that hold the same model, frame index and
    target; the cache, the viewer and the rest may differ. *)
Definition same_task (g g' : Globals SE3) : Prop :=
  model g' = model g /\
  tool_id g' = tool_id g /\
  transform_target_to_world g' = transform_target_to_world g.

(** Every configuration an optimiser hands out has the model's size. *)
Fixpoint sized (n : nat) (o : Optimizer) : Prop :=
  match o with
  | Stop x => List.length x = n
  | Fail _ => True
  | Objective q k => List.length q = n /\ forall y, sized n (k y)
  | Iterate q k => List.length q = n /\ sized n k
  end.

End IpoptCell.

(** *** Part 2 as a whole *)

Section Part2.

Context {SE3 : Type} {pin : Pinocchio SE3} {cas : CasadiPinocchio SE3}.

(** Build [error_tool], take [totalcost] of it as the objective
    ([opti.minimize(totalcost)]) and run the IPOPT cell. *)
Definition part2_ipopt (ipopt : Optimizer) : Py (Globals SE3) Config :=
  etool <- error_tool ;;
  invgeom_ipopt (totalcost etool) ipopt.

End Part2.

(** ** A reference instance: a gantry *)

(** Three pairs of prismatic axes carrying a tool that does not turn.  Its
    placements are translations, composed by addition; the logarithm of a
    translation is the translation as linear part and no angular part. *)
Module Gantry.

Definition zero3 : Vector3 := mkVector3 0 0 0.

Definition add3 (a b : Vector3) : Vector3 :=
  mkVector3 (vx a + vx b) (vy a + vy b) (vz a + vz b).

Definition neg3 (a : Vector3) : Vector3 :=
  mkVector3 (- vx a) (- vy a) (- vz a).

Definition homogeneous (p : Vector3) : list (list R) :=
  [[1; 0; 0; vx p]; [0; 1; 0; vy p]; [0; 0; 1; vz p]; [0; 0; 0; 1]].

#[export] Instance pin : Pinocchio Vector3 := {
  SE3_Identity := zero3;
  SE3_make := fun _ p => p;
  SE3_mul := add3;
  SE3_inverse := neg3;
  SE3_np := homogeneous;
  pin_log := fun p => mkMotion p zero3
}.

(** Symbolic values as the maps they denote. *)
#[export] Instance cas : CasadiPinocchio Vector3 := {
  SX := Config -> list R;
  cModel := Model Vector3;
  cSE3 := Config -> Vector3;
  cMotion := Config -> Motion;
  SX_sym := fun _ _ q => q;
  cpin_Model := fun m => m;
  cpin_framesForwardKinematics :=
    fun m x => map (fun f q => placement_at f (x q)) (frames m);
  cpin_SE3 := fun M _ => M;
  cSE3_mul := fun a b q => add3 (a q) (b q);
  cSE3_inverse := fun a q => neg3 (a q);
  cpin_log6 := fun a q => mkMotion (a q) zero3;
  cvector := fun m q => vector (m q);
  casadi_Function := fun _ y q => y q
}.

Definition tool_at (q : Config) : Vector3 :=
  mkVector3 (nth 0 q 0 + nth 3 q 0) (nth 1 q 0 + nth 4 q 0) (nth 2 q 0 + nth 5 q 0).

Definition gantry : Model Vector3 :=
  mkModel 6 [mkFrame "universe" (fun _ => zero3); mkFrame "tool0" tool_at].

Definition viz0 : Viz := mkViz (fun _ => None) None.

Definition g0 : Globals Vector3 :=
  invgeom_task_params gantry (createData gantry) viz0.

Definition q_reach : Config := [-0.5; 0.1; 0.2; 0; 0; 0].

Definition den (P : Config -> Vector3) (q : Config) : Vector3 := P q.

Definition mden (m : Config -> Motion) (q : Config) : Motion := m q.

(** The residual function that [error_tool] builds on the gantry. *)
Definition etool0 : Config -> list R :=
  fun q => vector (mkMotion (add3 (neg3 (tool_at q)) (mkVector3 (-0.5) 0.1 0.2)) zero3).

(** A solver that reports one iterate and then fails. *)
Definition failing : Optimizer :=
  Iterate q_reach (Fail (RuntimeError "Solver failed")).

(** A three-step optimiser, for running the cells on the gantry. *)
Definition three_steps (x0 : Config) : Optimizer :=
  Objective x0 (fun _ =>
  Iterate q_reach (
  Objective q_reach (fun y =>
  if Rle_dec y 0 then Stop q_reach else Fail (RuntimeError "Solver failed")))).

End Gantry.

(** ** What is assumed of the libraries *)

(** The placement of frame [i] of model [m] at configuration [q]: the
    forward-kinematics map itself, with no cache in between. *)
Definition M_tool {SE3 : Type} (m : Model SE3) (i : nat) (q : Config) : option SE3 :=
  option_map (fun f => placement_at f q) (nth_error (frames m) i).


(** The symbolic operations compute what the numeric ones compute: with
    [den P q] the placement that the symbolic placement [P] stands for
    when the symbol is given the value [q], and [mden] the same for
    motions, every operation of [pinocchio.casadi] commutes with taking
    values, and a [casadi.Function] of the symbol returns the value of its
    output expression. *)
Record Denotes {SE3 : Type} (pin : Pinocchio SE3) (cas : CasadiPinocchio SE3)
    (den : cSE3 -> Config -> SE3) (mden : cMotion -> Config -> Motion) : Prop := {
  den_fk : forall (m : Model SE3) (q : Config),
    List.length q = nq m ->
    map (fun P => den P q) (cdata_oMf m) = map (fun f => placement_at f q) (frames m);
  den_SE3 : forall (M : SE3) (q : Config), den (cpin_SE3 M) q = M;
  den_mul : forall (a b : cSE3) (q : Config),
    den (cSE3_mul a b) q = SE3_mul (den a q) (den b q);
  den_inverse : forall (a : cSE3) (q : Config),
    den (cSE3_inverse a) q = SE3_inverse (den a q);
  den_log6 : forall (a : cSE3) (q : Config),
    mden (cpin_log6 a) q = pin_log (den a q);
  den_Function : forall (n : nat) (y : cMotion) (q : Config),
    List.length q = n ->
    casadi_Function (SX_sym "q" n) (cvector y) q = vector (mden y q)
}.

(** ** Replaying a run *)

(** What a run does is fixed by the values the objective returns.  These
    functions follow an optimiser along the path that the value function
    [v] selects: what it ends with, how many iterates it reports, which
    iterate it reports first and last, and which configuration it hands
    out last, to the objective or to the callback. *)
Fixpoint outcome_of (v : Config -> R) (o : Optimizer) : Outcome Config :=
  match o with
  | Stop x => Ok x
  | Fail e => Raise e
  | Objective q k => outcome_of v (k (v q))
  | Iterate q k => outcome_of v k
  end.

Fixpoint iterations (v : Config -> R) (o : Optimizer) : nat :=
  match o with
  | Stop _ => O
  | Fail _ => O
  | Objective q k => iterations v (k (v q))
  | Iterate q k => S (iterations v k)
  end.


Fixpoint last_iterate (v : Config -> R) (o : Optimizer) (d : option Config)
  : option Config :=
  match o with
  | Stop _ => d
  | Fail _ => d
  | Objective q k => last_iterate v (k (v q)) d
  | Iterate q k => last_iterate v k (Some q)
  end.

Fixpoint last_call (v : Config -> R) (o : Optimizer) (d : option Config)
  : option Config :=
  match o with
  | Stop _ => d
  | Fail _ => d
  | Objective q k => last_call v (k (v q)) (Some q)
  | Iterate q k => last_call v k (Some q)
  end.

(** The first call of a run, with [true] for the objective and [false]
    for the callback. *)
Definition first_call (o : Optimizer) : option (bool * Config) :=
  match o with
  | Stop _ => None
  | Fail _ => None
  | Objective q _ => Some (true, q)
  | Iterate q _ => Some (false, q)
  end.

Section Replay.

Context {SE3 : Type} {pin : Pinocchio SE3}.

(** All the placements of model [m] at [q], as [data.oMf] holds them
    after forward kinematics. *)
Definition placements (m : Model SE3) (q : Config) : list SE3 :=
  map (fun f => placement_at f q) (frames m).

(** The number that [error] computes from the model, the frame index and
    the target, with no state in between; zero stands in where the frame
    index points past the frame table. *)
Definition task_error (m : Model SE3) (i : nat) (T : SE3) (q : Config) : R :=
  match M_tool m i q with
  | Some M => norm (vector (pin_log (SE3_mul (SE3_inverse M) T)))
  | None => 0
  end.

Definition error_value (g : Globals SE3) (q : Config) : R :=
  task_error (model g) (tool_id g) (transform_target_to_world g) q.


End Replay.

(** ** Rotation matrices *)









(** ** A gantry whose model has no tool frame *)

Module BareGantry.

Definition bare : Model Vector3 :=
  mkModel 6 [mkFrame "universe" (fun _ => Gantry.zero3)].

Definition g_bare : Globals Vector3 :=
  @invgeom_task_params Vector3 Gantry.pin bare
    (@createData Vector3 Gantry.pin bare) Gantry.viz0.


End BareGantry.

(** ** Sums of squares and the norm *)

Lemma sumsqr_nonneg (v : list R) : 0 <= sumsqr v.
Proof.
  induction v as [|x r IH]; simpl.
  - lra.
  - pose proof (Rle_0_sqr x) as Hx. unfold Rsqr in Hx. lra.
Qed.

Lemma sumsqr_zero_iff (v : list R) :
  sumsqr v = 0 <-> Forall (fun x => x = 0) v.
Proof.
  induction v as [|x r IH]; simpl.
  - split; [constructor | reflexivity].
  - pose proof (sumsqr_nonneg r) as Hr.
    pose proof (Rle_0_sqr x) as Hx. unfold Rsqr in Hx.
    split.
    + intros H.
      assert (Hxx : x * x = 0) by lra.
      assert (Hrr : sumsqr r = 0) by lra.
      constructor.
      * destruct (Rmult_integral _ _ Hxx); assumption.
      * apply IH, Hrr.
    + intros H. inversion H as [|? ? H0 Hrest]; subst.
      apply IH in Hrest. rewrite Hrest. lra.
Qed.



Lemma norm_zero_iff (v : list R) : norm v = 0 <-> sumsqr v = 0.
Proof.
  unfold norm. split.
  - intros H. apply sqrt_eq_0; [apply sumsqr_nonneg | exact H].
  - intros H. rewrite H. apply sqrt_0.
Qed.

Lemma vector_zero_iff (m : Motion) :
  Forall (fun x => x = 0) (vector m) <-> m = Motion_Zero.
Proof.
  destruct m as [[a b c] [d e f]]. unfold vector, Motion_Zero. simpl.
  split.
  - intros H.
    repeat match goal with
           | H : Forall _ (_ :: _) |- _ => inversion H; clear H; subst
           end.
    reflexivity.
  - intros H. inversion H; subst. repeat constructor.
Qed.

Lemma norm_vector_zero_iff (m : Motion) :
  norm (vector m) = 0 <-> m = Motion_Zero.
Proof.
  rewrite norm_zero_iff, sumsqr_zero_iff. apply vector_zero_iff.
Qed.

(** ** The frame table *)

Section Facts.

Context {SE3 : Type} {pin : Pinocchio SE3}.

Lemma index_of_le (n : string) (l : list (Frame SE3)) :
  (index_of n l <= List.length l)%nat.
Proof.
  induction l as [|f r IH]; simpl.
  - lia.
  - destruct (String.eqb (name f) n); lia.
Qed.

Lemma index_of_found (n : string) (l : list (Frame SE3)) :
  (exists f, In f l /\ name f = n) ->
  exists f, nth_error l (index_of n l) = Some f /\ name f = n.
Proof.
  induction l as [|f r IH]; intros [f0 [Hin Hn]].
  - destruct Hin.
  - simpl. destruct (String.eqb (name f) n) eqn:E.
    + exists f. split; [reflexivity | apply String.eqb_eq, E].
    + simpl. apply IH. destruct Hin as [Heq | Hin].
      * subst f0. apply String.eqb_neq in E. contradiction.
      * exists f0. split; assumption.
Qed.


(** ** Running [error] and [callback] *)

Lemma fk_ok (m : Model SE3) (d : Data SE3) (q : Config) :
  List.length q = nq m ->
  framesForwardKinematics m d q =
  Ok (mkData (map (fun f => placement_at f q) (frames m))).
Proof.
  intros H. unfold framesForwardKinematics.
  rewrite H, Nat.eqb_refl. reflexivity.
Qed.

Lemma M_tool_nth (m : Model SE3) (i : nat) (q : Config) (M : SE3) :
  M_tool m i q = Some M ->
  nth_error (map (fun f => placement_at f q) (frames m)) i = Some M.
Proof.
  unfold M_tool. intros H. rewrite nth_error_map. exact H.
Qed.

Lemma error_run (g : Globals SE3) (q : Config) (M : SE3) :
  List.length q = nq (model g) ->
  M_tool (model g) (tool_id g) q = Some M ->
  error q g =
  (Ok (norm (vector (pin_log
         (SE3_mul (SE3_inverse M) (transform_target_to_world g))))),
   set_data (mkData (map (fun f => placement_at f q) (frames (model g)))) g).
Proof.
  intros Hq HM. apply M_tool_nth in HM.
  unfold error, bind, gets, getitem, pin_framesForwardKinematics.
  rewrite (fk_ok _ _ _ Hq). simpl.
  rewrite HM. reflexivity.
Qed.

Ltac py_unfold :=
  unfold error, callback, opti_callback, opti_debug_value, no_callback,
         bind, gets, modify, getitem, ret, raise, returns, raises,
         set_transform, viz_display, time_sleep, print,
         pin_framesForwardKinematics, framesForwardKinematics in *.

Lemma callback_run (g : Globals SE3) (q : Config) (M : SE3) :
  List.length q = nq (model g) ->
  M_tool (model g) (tool_id g) q = Some M ->
  callback q g =
  (Ok tt,
   mkGlobals (model g)
     (mkData (map (fun f => placement_at f q) (frames (model g))))
     (tool_id g) (transform_target_to_world g)
     (mkViz (fun p => if String.eqb p "current" then Some (SE3_np M)
                      else if String.eqb p "target"
                           then Some (SE3_np (transform_target_to_world g))
                           else node_transform (viz g) p)
            (Some q))
     (slept g + 1e-1) (stdout g) (opti_debug g) (opti_solution g)).
Proof.
  intros Hq HM. apply M_tool_nth in HM.
  unfold callback, bind, gets, getitem, pin_framesForwardKinematics.
  rewrite (fk_ok _ _ _ Hq). simpl.
  rewrite HM. reflexivity.
Qed.

Lemma same_task_refl (g : Globals SE3) : same_task g g.
Proof. repeat split. Qed.

Lemma same_task_trans (g1 g2 g3 : Globals SE3) :
  same_task g1 g2 -> same_task g2 g3 -> same_task g1 g3.
Proof.
  intros (A1 & A2 & A3) (B1 & B2 & B3).
  repeat split; congruence.
Qed.

Lemma same_task_sym (g1 g2 : Globals SE3) :
  same_task g1 g2 -> same_task g2 g1.
Proof. intros (A1 & A2 & A3). repeat split; congruence. Qed.

(** [error] writes the cache and nothing else. *)
Lemma error_frame (q : Config) (g : Globals SE3) :
  exists d, snd (error q g) = set_data d g.
Proof.
  py_unfold.
  destruct (Nat.eqb (List.length q) (nq (model g))); simpl.
  - destruct (nth_error _ _); simpl; eexists; reflexivity.
  - exists (data g). destruct g; reflexivity.
Qed.

Lemma error_same_task (q : Config) (g : Globals SE3) :
  same_task g (snd (error q g)).
Proof.
  destruct (error_frame q g) as [d ->]. repeat split.
Qed.

Lemma callback_same_task (q : Config) (g : Globals SE3) :
  same_task g (snd (callback q g)).
Proof.
  py_unfold.
  destruct (Nat.eqb (List.length q) (nq (model g))); simpl.
  - destruct (nth_error _ _); simpl; repeat split.
  - repeat split.
Qed.

(** [callback] writes the cache, the viewer and the clock, and nothing
    else. *)
Lemma callback_frame (q : Config) (g : Globals SE3) :
  exists d v t, snd (callback q g) = set_slept t (set_viz v (set_data d g)).
Proof.
  py_unfold.
  destruct (Nat.eqb (List.length q) (nq (model g))); simpl.
  - destruct (nth_error _ _); simpl.
    + do 3 eexists. unfold set_slept, set_viz, set_data. simpl. reflexivity.
    + exists (mkData (map (fun f => placement_at f q) (frames (model g)))),
        (viz g), (slept g). reflexivity.
  - exists (data g), (viz g), (slept g). destruct g; reflexivity.
Qed.

Lemma callback_keeps_opti (q : Config) (g : Globals SE3) :
  opti_debug (snd (callback q g)) = opti_debug g /\
  opti_solution (snd (callback q g)) = opti_solution g /\
  stdout (snd (callback q g)) = stdout g.
Proof.
  destruct (callback_frame q g) as (d & v & t & ->). repeat split.
Qed.

(** The value of [error] is a function of the model, the frame index, the
    target and [q]. *)
Lemma error_reads_task (q : Config) (g g' : Globals SE3) :
  same_task g g' -> fst (error q g') = fst (error q g).
Proof.
  intros (Hm & Hi & Ht).
  py_unfold. rewrite Hm.
  destruct (Nat.eqb (List.length q) (nq (model g))); simpl.
  - rewrite Hi.
    destruct (nth_error _ _); simpl; [rewrite Ht|]; reflexivity.
  - reflexivity.
Qed.

(** A run writes no more of the task than its objective and its callback
    do. *)
Lemma drive_same_task
    (f : Config -> Py (Globals SE3) R) (cb : Config -> Py (Globals SE3) unit) :
  (forall q g, same_task g (snd (f q g))) ->
  (forall q g, same_task g (snd (cb q g))) ->
  forall (o : Optimizer) (g : Globals SE3), same_task g (snd (drive f cb o g)).
Proof.
  intros Hf Hcb o.
  induction o as [x | e | q k IH | q k IH]; intros g; simpl.
  - apply same_task_refl.
  - apply same_task_refl.
  - unfold bind. pose proof (Hf q g) as H.
    destruct (f q g) as [[y|e] g1]; simpl in *.
    + eapply same_task_trans; [exact H | apply IH].
    + exact H.
  - unfold bind. pose proof (Hcb q g) as H.
    destruct (cb q g) as [[u|e] g1]; simpl in *.
    + eapply same_task_trans; [exact H | apply IH].
    + exact H.
Qed.

(** [error] does not check its argument: a configuration of the
    wrong size is turned down by the forward kinematics, and the exception
    passes through. *)
Lemma error_wrong_size (g : Globals SE3) (q : Config) :
  List.length q <> nq (model g) -> error q g = (Raise ValueError, g).
Proof.
  intros H. apply Nat.eqb_neq in H.
  unfold error, bind, pin_framesForwardKinematics, framesForwardKinematics.
  rewrite H. reflexivity.
Qed.

(** ** The claims on [error] *)




(** C7. Evaluating [error] at the same [q] gives the same result whatever
    the cache holds: after replacing the cache by any other, after a
    callback at another configuration, after an evaluation at another
    configuration, after a whole optimiser run with its callbacks, and on
    evaluating twice in a row. *)
Theorem error_idempotent (g : Globals SE3) (q : Config) :
  (forall d : Data SE3, fst (error q (set_data d g)) = fst (error q g)) /\
  (forall q' : Config, fst (error q (snd (callback q' g))) = fst (error q g)) /\
  (forall q' : Config, fst (error q (snd (error q' g))) = fst (error q g)) /\
  (forall o : Optimizer,
     fst (error q (snd (drive error callback o g))) = fst (error q g)) /\
  fst (error q (snd (error q g))) = fst (error q g).
Proof.
  repeat split.
  - intros d. apply error_reads_task. repeat split.
  - intros q'. apply error_reads_task, callback_same_task.
  - intros q'. apply error_reads_task, error_same_task.
  - intros o. apply error_reads_task, drive_same_task;
      [apply error_same_task | apply callback_same_task].
  - apply error_reads_task, error_same_task.
Qed.

(** C9. When the model has a frame named tool0 and [tool_id] is its
    index, [error] returns a real number on every configuration of the
    model's size: none of its steps raises. *)
Theorem error_total (g : Globals SE3) (q : Config) :
  (exists f, In f (frames (model g)) /\ name f = "tool0"%string) ->
  tool_id g = getFrameId (model g) "tool0" ->
  List.length q = nq (model g) ->
  exists (e : R) (g' : Globals SE3), error q g = (Ok e, g').
Proof.
  intros Hf Hid Hq.
  destruct (index_of_found _ _ Hf) as [f [Hnth _]].
  assert (HM : M_tool (model g) (tool_id g) q = Some (placement_at f q)).
  { unfold M_tool. rewrite Hid. unfold getFrameId. rewrite Hnth. reflexivity. }
  rewrite (error_run g q _ Hq HM). eauto.
Qed.

(** ** The callback *)

(** C10. A call of [callback] at a configuration [q] of the model's size
    returns; afterwards the shared cache holds the placements at [q] (so
    it no longer holds what an earlier evaluation of [error] at another
    configuration left there, and differs from it when the tool placements
    differ), the viewer shows the target, the tool placement at [q] and
    [q] itself, a tenth of a second has gone by, and the model, the frame
    index, the target pose, the solver's iterate and solution and the
    printed output are what they were.  The argument [q] is a value that
    the body only reads. *)
Theorem callback_effects (g : Globals SE3) (q : Config) (M : SE3) :
  List.length q = nq (model g) ->
  M_tool (model g) (tool_id g) q = Some M ->
  fst (callback q g) = Ok tt /\
  oMf (data (snd (callback q g))) =
    map (fun f => placement_at f q) (frames (model g)) /\
  nth_error (oMf (data (snd (callback q g)))) (tool_id g) = Some M /\
  node_transform (viz (snd (callback q g))) "target" =
    Some (SE3_np (transform_target_to_world g)) /\
  node_transform (viz (snd (callback q g))) "current" = Some (SE3_np M) /\
  displayed (viz (snd (callback q g))) = Some q /\
  slept (snd (callback q g)) = slept g + 1e-1 /\
  same_task g (snd (callback q g)) /\
  opti_debug (snd (callback q g)) = opti_debug g /\
  opti_solution (snd (callback q g)) = opti_solution g /\
  stdout (snd (callback q g)) = stdout g /\
  (forall (q0 : Config) (M0 : SE3),
     List.length q0 = nq (model g) ->
     M_tool (model g) (tool_id g) q0 = Some M0 ->
     nth_error (oMf (data (snd (error q0 g)))) (tool_id g) = Some M0 /\
     nth_error (oMf (data (snd (callback q (snd (error q0 g)))))) (tool_id g)
       = Some M /\
     (M0 <> M ->
      data (snd (callback q (snd (error q0 g)))) <> data (snd (error q0 g)))).
Proof.
  intros Hq HM.
  rewrite (callback_run g q M Hq HM). simpl.
  repeat split.
  - apply M_tool_nth, HM.
  - rewrite (error_run g q0 M0 H H0). simpl. apply M_tool_nth, H0.
  - rewrite (error_run g q0 M0 H H0).
    rewrite (callback_run _ q M); [|exact Hq|exact HM].
    simpl. apply M_tool_nth, HM.
  - rewrite (error_run g q0 M0 H H0).
    rewrite (callback_run _ q M); [|exact Hq|exact HM].
    simpl. intros Hne Heq.
    apply Hne.
    pose proof (M_tool_nth _ _ _ _ H0) as E0.
    pose proof (M_tool_nth _ _ _ _ HM) as E1.
    injection Heq as Heq. rewrite Heq in E1. congruence.
Qed.

(** ** The optimiser runs *)

Lemma opti_callback_same_task (q : Config) (g : Globals SE3) :
  same_task g (snd (opti_callback q g)).
Proof.
  unfold opti_callback, opti_debug_value, bind, modify, gets. simpl.
  pose proof (callback_same_task q (set_opti_debug q g)) as H.
  destruct (callback q (set_opti_debug q g)) as [[u|e] g1]; exact H.
Qed.

Lemma fmin_bfgs_same_task (fmin_bfgs : Config -> Optimizer) (g : Globals SE3) :
  same_task g (snd (invgeom_fmin_bfgs fmin_bfgs g)).
Proof.
  unfold invgeom_fmin_bfgs.
  apply drive_same_task; [apply error_same_task | apply callback_same_task].
Qed.

Lemma solve_limited_same_task (cost : Config -> R) (ipopt : Optimizer)
    (g : Globals SE3) :
  same_task g (snd (opti_solve_limited cost ipopt g)).
Proof.
  unfold opti_solve_limited, bind.
  pose proof (drive_same_task (fun q => ret (cost q)) opti_callback
                (fun q g => same_task_refl g) opti_callback_same_task ipopt g) as H.
  destruct (drive _ _ ipopt g) as [[x|e] g1]; simpl in *; exact H.
Qed.

Lemma ipopt_same_task (cost : Config -> R) (ipopt : Optimizer) (g : Globals SE3) :
  same_task g (snd (invgeom_ipopt cost ipopt g)).
Proof.
  unfold invgeom_ipopt, invgeom_ipopt_try, try_except, bind.
  pose proof (solve_limited_same_task cost ipopt g) as H.
  destruct (opti_solve_limited cost ipopt g) as [[x|e] g1]; simpl in *.
  - unfold opti_value. destruct (opti_solution g1); simpl; exact H.
  - exact H.
Qed.

(** With the callback or without it, a run ends the same way. *)
Lemma drive_error_callback_irrelevant (o : Optimizer) :
  forall g g' : Globals SE3,
    same_task g g' ->
    sized (nq (model g)) o ->
    (tool_id g < List.length (frames (model g)))%nat ->
    fst (drive error callback o g) = fst (drive error no_callback o g').
Proof.
  induction o as [x | e | q k IH | q k IH]; intros g g' Hs Hz Hi; simpl.
  - reflexivity.
  - reflexivity.
  - destruct Hz as [Hq Hk].
    unfold bind.
    pose proof (error_reads_task q g g' Hs) as Hv.
    pose proof (error_same_task q g) as H1.
    pose proof (error_same_task q g') as H2.
    destruct (error q g) as [[y|e] g1], (error q g') as [[y'|e'] g1'];
      simpl in *; try discriminate; try congruence.
    injection Hv as <-.
    pose proof H1 as (A1 & A2 & A3).
    apply IH.
    + apply (same_task_trans g1 g g1'); [apply same_task_sym, H1|].
      apply (same_task_trans g g' g1'); [exact Hs | exact H2].
    + rewrite A1. apply Hk.
    + rewrite A1, A2. exact Hi.
  - destruct Hz as [Hq Hk].
    unfold bind.
    destruct (nth_error (frames (model g)) (tool_id g)) as [f|] eqn:Ef;
      [|apply nth_error_None in Ef; lia].
    assert (HM : M_tool (model g) (tool_id g) q = Some (placement_at f q))
      by (unfold M_tool; rewrite Ef; reflexivity).
    rewrite (callback_run g q _ Hq HM). unfold no_callback, ret.
    apply IH; simpl.
    + destruct Hs as (A1 & A2 & A3). repeat split; assumption.
    + exact Hk.
    + exact Hi.
Qed.

Lemma opti_callback_run (g : Globals SE3) (q : Config) :
  List.length q = nq (model g) ->
  (tool_id g < List.length (frames (model g)))%nat ->
  exists g1, opti_callback q g = (Ok tt, g1) /\ same_task g g1.
Proof.
  intros Hq Hi.
  destruct (nth_error (frames (model g)) (tool_id g)) as [f|] eqn:Ef;
    [|apply nth_error_None in Ef; lia].
  assert (HM : M_tool (model (set_opti_debug q g)) (tool_id (set_opti_debug q g)) q
               = Some (placement_at f q))
    by (unfold M_tool; simpl; rewrite Ef; reflexivity).
  unfold opti_callback, opti_debug_value, bind, modify, gets. simpl.
  rewrite (callback_run (set_opti_debug q g) q _ Hq HM).
  eexists. split; [reflexivity | repeat split].
Qed.

Lemma drive_cost_callback_irrelevant (cost : Config -> R) (o : Optimizer) :
  forall g g' : Globals SE3,
    same_task g g' ->
    sized (nq (model g)) o ->
    (tool_id g < List.length (frames (model g)))%nat ->
    fst (drive (fun q => ret (cost q)) opti_callback o g) =
    fst (drive (fun q => ret (cost q)) no_callback o g').
Proof.
  induction o as [x | e | q k IH | q k IH]; intros g g' Hs Hz Hi; simpl.
  - reflexivity.
  - reflexivity.
  - destruct Hz as [Hq Hk]. unfold bind, ret. apply IH; auto.
  - destruct Hz as [Hq Hk].
    destruct (opti_callback_run g q Hq Hi) as (g1 & E & A1 & A2 & A3).
    unfold bind. rewrite E. unfold no_callback, ret.
    apply IH.
    + apply (same_task_trans g1 g g'); [repeat split; congruence | exact Hs].
    + rewrite A1. exact Hk.
    + rewrite A1, A2. exact Hi.
Qed.

(** ** The [try]/[except] of the IPOPT cell *)

(** C4. Whatever [opti.solve_limited()] does: if it raises, with any
    exception at all, the cell prints the diagnostic and goes on to read
    [sol_q] from the debug trace; if it returns, [sol_q] is what
    [opti.value(var_q)] returns.  With the [Opti] object of this file the
    cell never raises: a failed solve yields the debug iterate. *)
Theorem ipopt_failure_is_caught {Sol : Type}
    (solve_limited : Py (Globals SE3) Sol)
    (value debug_value : Py (Globals SE3) Config) (g : Globals SE3) :
  (forall (e : PyExc) (g1 : Globals SE3),
     solve_limited g = (Raise e, g1) ->
     invgeom_ipopt_try solve_limited value debug_value g =
     debug_value (set_stdout (stdout g1 ++ [diagnostic]) g1)) /\
  (forall (s : Sol) (g1 : Globals SE3) (x : Config) (g2 : Globals SE3),
     solve_limited g = (Ok s, g1) ->
     value g1 = (Ok x, g2) ->
     invgeom_ipopt_try solve_limited value debug_value g = (Ok x, g2)) /\
  (forall (e : PyExc) (g1 : Globals SE3),
     solve_limited g = (Raise e, g1) ->
     invgeom_ipopt_try solve_limited opti_value opti_debug_value g =
     (Ok (opti_debug g1), set_stdout (stdout g1 ++ [diagnostic]) g1)) /\
  (forall g1 : Globals SE3,
     solve_limited g = (Raise KeyboardInterrupt, g1) ->
     returns (invgeom_ipopt_try solve_limited opti_value opti_debug_value) g
       (opti_debug g1)) /\
  (forall (s : Sol) (g1 : Globals SE3) (x : Config),
     solve_limited g = (Ok s, g1) ->
     opti_solution g1 = Some x ->
     invgeom_ipopt_try solve_limited opti_value opti_debug_value g = (Ok x, g1)) /\
  (forall e : PyExc,
     ~ raises (invgeom_ipopt_try solve_limited opti_value opti_debug_value) g e).
Proof.
  unfold invgeom_ipopt_try, try_except, bind, print, modify, diagnostic.
  repeat split.
  - intros e g1 H. rewrite H. reflexivity.
  - intros s g1 x g2 H Hv. rewrite H, Hv. reflexivity.
  - intros e g1 H. rewrite H. reflexivity.
  - intros g1 H. unfold returns. rewrite H. reflexivity.
  - intros s g1 x H Hx. rewrite H. unfold opti_value. rewrite Hx. reflexivity.
  - intros e. unfold raises.
    destruct (solve_limited g) as [[s|e0] g1].
    + unfold opti_value. destruct (opti_solution g1) as [x|]; simpl; discriminate.
    + simpl. discriminate.
Qed.

End Facts.

(** ** The symbolic residual *)

Section SymbolicFacts.

Context {SE3 : Type} {pin : Pinocchio SE3} {cas : CasadiPinocchio SE3}.

(** Building the function writes nothing. *)
Lemma error_tool_frame (g : Globals SE3) : snd (error_tool g) = g.
Proof.
  unfold error_tool, bind, gets, getitem, ret, raise. simpl.
  destruct (nth_error _ _); reflexivity.
Qed.

(** What the built function computes, given that the symbolic operations
    denote the numeric ones. *)
Lemma error_tool_value
    (den : cSE3 -> Config -> SE3) (mden : cMotion -> Config -> Motion)
    (D : Denotes pin cas den mden)
    (g g1 : Globals SE3) (etool : Config -> list R) (q : Config) :
  error_tool g = (Ok etool, g1) ->
  List.length q = nq (model g) ->
  exists M : SE3,
    M_tool (model g) (tool_id g) q = Some M /\
    etool q = vector (pin_log
                (SE3_mul (SE3_inverse M) (transform_target_to_world g))).
Proof.
  intros Hb Hq.
  unfold error_tool, bind, gets, getitem, ret, raise in Hb. simpl in Hb.
  destruct (nth_error (cdata_oMf (model g)) (tool_id g)) as [P|] eqn:EP;
    [|discriminate].
  injection Hb as Hb _. subst etool.
  exists (den P q). split.
  - pose proof (den_fk pin cas den mden D (model g) q Hq) as Hfk.
    apply (f_equal (fun l => nth_error l (tool_id g))) in Hfk.
    rewrite !nth_error_map, EP in Hfk. simpl in Hfk.
    unfold M_tool. symmetry. exact Hfk.
  - unfold cq.
    rewrite (den_Function pin cas den mden D (nq (model g)) _ q Hq).
    rewrite (den_log6 pin cas den mden D).
    rewrite (den_mul pin cas den mden D).
    rewrite (den_inverse pin cas den mden D).
    rewrite (den_SE3 pin cas den mden D).
    reflexivity.
Qed.

(** C1. When every symbolic operation denotes its numeric counterpart,
    the scalar [error q] and the norm of the six-vector [error_tool q]
    are the same number, hence closer than 1e-9, at every configuration
    [q] of the model's size, in any state that holds the model, frame
    index and target the function was built from. *)
Theorem error_agrees_with_error_tool
    (den : cSE3 -> Config -> SE3) (mden : cMotion -> Config -> Motion)
    (D : Denotes pin cas den mden)
    (g g1 g' : Globals SE3) (etool : Config -> list R) (q : Config) :
  error_tool g = (Ok etool, g1) ->
  same_task g g' ->
  List.length q = nq (model g) ->
  exists e : R,
    returns (error q) g' e /\
    List.length (etool q) = 6%nat /\
    e = norm (etool q) /\
    Rabs (e - norm (etool q)) < 1e-9.
Proof.
  intros Hb Hs Hq.
  destruct (error_tool_value den mden D g g1 etool q Hb Hq) as (M & HM & Hv).
  exists (norm (etool q)). split; [|split; [|split]].
  - unfold returns. rewrite (error_reads_task q g g' Hs).
    rewrite (error_run g q M Hq HM). simpl. rewrite Hv. reflexivity.
  - rewrite Hv. reflexivity.
  - reflexivity.
  - unfold Rminus. rewrite Rplus_opp_r, Rabs_R0. lra.
Qed.


(** C8. The model, the frame index and the target pose are the same
    after as before: an evaluation of [error], the construction of
    [error_tool], a call of [callback], a whole run of [fmin_bfgs] on
    [error] with the callback, and the whole IPOPT cell.  The callback
    leaves the solver's iterate and solution alone, and it does not steer
    a run either: with it or without it, a run over configurations of the
    model's size ends with the same result. *)
Theorem task_is_read_only (g : Globals SE3) :
  (forall q : Config, same_task g (snd (error q g))) /\
  snd (error_tool g) = g /\
  (forall q : Config, same_task g (snd (callback q g))) /\
  (forall q : Config,
     opti_debug (snd (callback q g)) = opti_debug g /\
     opti_solution (snd (callback q g)) = opti_solution g) /\
  (forall fmin_bfgs : Config -> Optimizer,
     same_task g (snd (invgeom_fmin_bfgs fmin_bfgs g))) /\
  (forall (cost : Config -> R) (ipopt : Optimizer),
     same_task g (snd (invgeom_ipopt cost ipopt g))) /\
  (forall ipopt : Optimizer, same_task g (snd (part2_ipopt ipopt g))) /\
  (forall o : Optimizer,
     sized (nq (model g)) o ->
     (tool_id g < List.length (frames (model g)))%nat ->
     fst (drive error callback o g) = fst (drive error no_callback o g)) /\
  (forall (cost : Config -> R) (o : Optimizer),
     sized (nq (model g)) o ->
     (tool_id g < List.length (frames (model g)))%nat ->
     fst (drive (fun q => ret (cost q)) opti_callback o g) =
     fst (drive (fun q => ret (cost q)) no_callback o g)).
Proof.
  split; [|split; [|split; [|split; [|split; [|split; [|split; [|split]]]]]]].
  - intros q. apply error_same_task.
  - apply error_tool_frame.
  - intros q. apply callback_same_task.
  - intros q. split; apply (callback_keeps_opti q g).
  - intros f. apply fmin_bfgs_same_task.
  - intros cost ipopt. apply ipopt_same_task.
  - intros ipopt. unfold part2_ipopt, bind.
    pose proof (error_tool_frame g) as Hg.
    destruct (error_tool g) as [[etool|e] g1]; simpl in Hg; subst g1.
    + apply ipopt_same_task.
    + apply same_task_refl.
  - intros o Hz Hi. apply drive_error_callback_irrelevant;
      [apply same_task_refl | exact Hz | exact Hi].
  - intros cost o Hz Hi. apply drive_cost_callback_irrelevant;
      [apply same_task_refl | exact Hz | exact Hi].
Qed.

End SymbolicFacts.

(** ** The gantry satisfies what is assumed *)

Import Gantry.


Lemma gantry_denotes : Denotes Gantry.pin Gantry.cas den mden.
Proof.
  split; simpl; unfold den, mden; try reflexivity.
  intros m q _. unfold cdata_oMf, cq. simpl. rewrite map_map. reflexivity.
Qed.

Lemma gantry_has_tool0 :
  exists f, In f (frames (model g0)) /\ name f = "tool0"%string.
Proof.
  exists (mkFrame "tool0" tool_at). split.
  - right. left. reflexivity.
  - reflexivity.
Qed.

Lemma gantry_error_tool : error_tool g0 = (Ok etool0, g0).
Proof. reflexivity. Qed.

Lemma three_steps_sized (x0 : Config) :
  List.length x0 = 6%nat -> sized (nq (model g0)) (three_steps x0).
Proof.
  intros H. simpl.
  split; [exact H|]. intros _.
  split; [reflexivity|].
  split; [reflexivity|]. intros y.
  destruct (Rle_dec y 0); simpl; auto.
Qed.

Lemma gantry_tool_id : (tool_id g0 < List.length (frames (model g0)))%nat.
Proof. exact (le_n 2). Qed.

(** On the gantry the error at [q_reach] is zero: the tool is on the
    target. *)
Example gantry_error_at_reach : returns (error q_reach) g0 0.
Proof.
  unfold returns.
  rewrite (error_run g0 q_reach (tool_at q_reach) eq_refl eq_refl).
  simpl. f_equal.
  apply norm_vector_zero_iff.
  unfold Motion_Zero, zero3, add3, neg3, tool_at, q_reach. simpl.
  f_equal. f_equal; lra.
Qed.

(** ** The claims at the gantry *)



Lemma error_total_witness :
  exists (e : R) (g' : Globals Vector3), error q_reach g0 = (Ok e, g').
Proof.
  apply (@error_total Vector3 Gantry.pin g0 q_reach).
  - exact gantry_has_tool0.
  - reflexivity.
  - reflexivity.
Defined.

Lemma callback_effects_witness :
  fst (callback qguess g0) = Ok tt /\
  nth_error (oMf (data (snd (callback qguess g0)))) (tool_id g0)
    = Some (tool_at qguess) /\
  displayed (viz (snd (callback qguess g0))) = Some qguess /\
  data (snd (callback qguess (snd (error q_reach g0))))
    <> data (snd (error q_reach g0)).
Proof.
  pose proof (@callback_effects Vector3 Gantry.pin g0 qguess (tool_at qguess)
                eq_refl eq_refl) as H.
  split; [apply H | split; [apply H | split; [apply H|]]].
  apply (proj2 (proj2 (proj2 (proj2 (proj2 (proj2 (proj2 (proj2 (proj2
           (proj2 (proj2 H)))))))))) q_reach (tool_at q_reach) eq_refl eq_refl).
  unfold tool_at, q_reach, qguess. simpl.
  intros E. injection E as E1 E2 E3. lra.
Defined.

Lemma ipopt_failure_is_caught_witness :
  invgeom_ipopt (fun _ => 1) failing g0 =
  (Ok (opti_debug (snd (opti_solve_limited (fun _ => 1) failing g0))),
   set_stdout
     (stdout (snd (opti_solve_limited (fun _ => 1) failing g0)) ++ [diagnostic])
     (snd (opti_solve_limited (fun _ => 1) failing g0))).
Proof.
  apply (proj1 (proj2 (proj2
           (@ipopt_failure_is_caught Vector3 Config
              (opti_solve_limited (fun _ => 1) failing)
              opti_value opti_debug_value g0)))
           (RuntimeError "Solver failed")).
  reflexivity.
Defined.

Lemma error_agrees_with_error_tool_witness :
  exists e : R,
    returns (error q_reach) g0 e /\
    List.length (etool0 q_reach) = 6%nat /\
    e = norm (etool0 q_reach) /\
    Rabs (e - norm (etool0 q_reach)) < 1e-9.
Proof.
  apply (@error_agrees_with_error_tool Vector3 Gantry.pin Gantry.cas den mden
           gantry_denotes g0 g0 g0 etool0 q_reach).
  - exact gantry_error_tool.
  - repeat split.
  - reflexivity.
Defined.


Lemma task_is_read_only_witness :
  fst (drive error callback (three_steps qguess) g0) =
  fst (drive error no_callback (three_steps qguess) g0).
Proof.
  apply (proj1 (proj2 (proj2 (proj2 (proj2 (proj2 (proj2 (proj2
           (@task_is_read_only Vector3 Gantry.pin Gantry.cas g0))))))))).
  - apply three_steps_sized. reflexivity.
  - exact gantry_tool_id.
Defined.

(** ** How [error] and [callback] end *)

Section Outcomes.

Context {SE3 : Type} {pin : Pinocchio SE3}.

Lemma M_tool_in_range (m : Model SE3) (i : nat) (q : Config) :
  (i < List.length (frames m))%nat ->
  exists f, nth_error (frames m) i = Some f /\
            M_tool m i q = Some (placement_at f q).
Proof.
  intros H.
  destruct (nth_error (frames m) i) as [f|] eqn:E.
  - exists f. split; [reflexivity|]. unfold M_tool. rewrite E. reflexivity.
  - apply nth_error_None in E. lia.
Qed.

Lemma placements_out_of_range (m : Model SE3) (i : nat) (q : Config) :
  (List.length (frames m) <= i)%nat -> nth_error (placements m q) i = None.
Proof.
  intros H. apply nth_error_None. unfold placements.
  rewrite length_map. exact H.
Qed.

Lemma error_missing (g : Globals SE3) (q : Config) :
  List.length q = nq (model g) ->
  (List.length (frames (model g)) <= tool_id g)%nat ->
  error q g = (Raise IndexError, set_data (mkData (placements (model g) q)) g).
Proof.
  intros Hq Hi.
  pose proof (placements_out_of_range (model g) (tool_id g) q Hi) as E.
  unfold error, bind, gets, getitem, pin_framesForwardKinematics.
  rewrite (fk_ok _ _ _ Hq). simpl.
  unfold placements in E. rewrite E. reflexivity.
Qed.

Lemma callback_missing (g : Globals SE3) (q : Config) :
  List.length q = nq (model g) ->
  (List.length (frames (model g)) <= tool_id g)%nat ->
  callback q g = (Raise IndexError, set_data (mkData (placements (model g) q)) g).
Proof.
  intros Hq Hi.
  pose proof (placements_out_of_range (model g) (tool_id g) q Hi) as E.
  unfold callback, bind, gets, getitem, pin_framesForwardKinematics.
  rewrite (fk_ok _ _ _ Hq). simpl.
  unfold placements in E. rewrite E. reflexivity.
Qed.

Lemma callback_wrong_size (g : Globals SE3) (q : Config) :
  List.length q <> nq (model g) -> callback q g = (Raise ValueError, g).
Proof.
  intros H. apply Nat.eqb_neq in H.
  unfold callback, bind, pin_framesForwardKinematics, framesForwardKinematics.
  rewrite H. reflexivity.
Qed.

(** In range, [error] returns [error_value], computed from the task. *)
Lemma error_run_value (g0 g : Globals SE3) (q : Config) :
  same_task g0 g ->
  List.length q = nq (model g) ->
  (tool_id g < List.length (frames (model g)))%nat ->
  error q g =
  (Ok (error_value g0 q), set_data (mkData (placements (model g) q)) g).
Proof.
  intros (Hm & Hi & Ht) Hq Hr.
  destruct (M_tool_in_range (model g) (tool_id g) q Hr) as (f & _ & HM).
  rewrite (error_run g q _ Hq HM).
  unfold error_value, task_error. rewrite <- Hm, <- Hi, <- Ht, HM.
  reflexivity.
Qed.

(** X1. The three ways [error] can end: a configuration of the wrong size
    raises [ValueError] and writes nothing; a frame index past the frame
    table raises [IndexError] once the cache is overwritten; otherwise it
    returns the error value and the cache holds the placements at [q].
    It raises nothing else. *)
Theorem error_outcomes (g : Globals SE3) (q : Config) :
  (List.length q <> nq (model g) -> error q g = (Raise ValueError, g)) /\
  (List.length q = nq (model g) ->
   (List.length (frames (model g)) <= tool_id g)%nat ->
   error q g =
   (Raise IndexError, set_data (mkData (placements (model g) q)) g)) /\
  (List.length q = nq (model g) ->
   (tool_id g < List.length (frames (model g)))%nat ->
   error q g =
   (Ok (error_value g q), set_data (mkData (placements (model g) q)) g)) /\
  (forall e : PyExc,
     raises (error q) g e -> e = ValueError \/ e = IndexError).
Proof.
  split; [|split; [|split]].
  - apply error_wrong_size.
  - apply error_missing.
  - apply error_run_value, same_task_refl.
  - intros e He. unfold raises in He.
    destruct (Nat.eq_dec (List.length q) (nq (model g))) as [Hq|Hq].
    + destruct (Nat.lt_ge_cases (tool_id g) (List.length (frames (model g))))
        as [Hr|Hr].
      * rewrite (error_run_value g g q (same_task_refl g) Hq Hr) in He.
        discriminate.
      * rewrite (error_missing g q Hq Hr) in He. simpl in He.
        right. congruence.
    + rewrite (error_wrong_size g q Hq) in He. simpl in He.
      left. congruence.
Qed.

(** X2. When [callback] raises, it is with [ValueError] (wrong size, nothing
    written) or with [IndexError] (frame index past the table, cache
    already overwritten); in both cases the viewer has not been touched
    and no time has been slept. *)
Theorem callback_outcomes (g : Globals SE3) (q : Config) :
  (List.length q <> nq (model g) -> callback q g = (Raise ValueError, g)) /\
  (List.length q = nq (model g) ->
   (List.length (frames (model g)) <= tool_id g)%nat ->
   callback q g =
   (Raise IndexError, set_data (mkData (placements (model g) q)) g)) /\
  (forall e : PyExc,
     raises (callback q) g e ->
     (e = ValueError \/ e = IndexError) /\
     viz (snd (callback q g)) = viz g /\
     slept (snd (callback q g)) = slept g).
Proof.
  split; [|split].
  - apply callback_wrong_size.
  - apply callback_missing.
  - intros e He. unfold raises in He.
    destruct (Nat.eq_dec (List.length q) (nq (model g))) as [Hq|Hq].
    + destruct (Nat.lt_ge_cases (tool_id g) (List.length (frames (model g))))
        as [Hr|Hr].
      * destruct (M_tool_in_range (model g) (tool_id g) q Hr) as (f & _ & HM).
        rewrite (callback_run g q _ Hq HM) in He. discriminate.
      * rewrite (callback_missing g q Hq Hr) in *. simpl in *.
        repeat split. right. congruence.
    + rewrite (callback_wrong_size g q Hq) in *. simpl in *.
      repeat split. left. congruence.
Qed.



End Outcomes.

(** ** What a run leaves behind *)

Lemma last_call_acc (v : Config -> R) (o : Optimizer) (q : Config) :
  last_call v o (Some q) =
  Some (match last_call v o None with Some q' => q' | None => q end).
Proof.
  revert q. induction o as [x | e | q0 k IH | q0 k IH]; intros q; simpl.
  - reflexivity.
  - reflexivity.
  - rewrite (IH (v q0) q0). reflexivity.
  - rewrite (IH q0). reflexivity.
Qed.

Lemma last_call_some (v : Config -> R) (o : Optimizer) (q : Config) :
  exists q', last_call v o (Some q) = Some q'.
Proof. rewrite last_call_acc. eexists. reflexivity. Qed.


Lemma outcome_sized (n : nat) (v : Config -> R) (o : Optimizer) (x : Config) :
  sized n o -> outcome_of v o = Ok x -> List.length x = n.
Proof.
  induction o as [x0 | e | q0 k IH | q0 k IH]; simpl; intros Hz Ho.
  - congruence.
  - discriminate.
  - destruct Hz as [_ Hk]. apply (IH (v q0)); [apply Hk | exact Ho].
  - destruct Hz as [_ Hk]. apply IH; assumption.
Qed.

Section Runs.

Context {SE3 : Type} {pin : Pinocchio SE3}.

(** A run of [error] with [callback], followed call by call. *)
Lemma drive_error_inv (g0 : Globals SE3) (o : Optimizer) :
  forall g : Globals SE3,
    same_task g0 g ->
    sized (nq (model g)) o ->
    (tool_id g < List.length (frames (model g)))%nat ->
    fst (drive error callback o g) = outcome_of (error_value g0) o /\
    slept (snd (drive error callback o g)) =
      slept g + INR (iterations (error_value g0) o) * 1e-1 /\
    displayed (viz (snd (drive error callback o g))) =
      last_iterate (error_value g0) o (displayed (viz g)) /\
    oMf (data (snd (drive error callback o g))) =
      match last_call (error_value g0) o None with
      | Some q => placements (model g) q
      | None => oMf (data g)
      end.
Proof.
  induction o as [x | e | q k IH | q k IH]; intros g Hs Hz Hr;
    cbn [drive outcome_of iterations last_iterate last_call sized] in *.
  - simpl. repeat split. lra.
  - simpl. repeat split. lra.
  - destruct Hz as [Hq Hk].
    unfold bind. rewrite (error_run_value g0 g q Hs Hq Hr).
    set (g1 := set_data (mkData (placements (model g) q)) g).
    destruct (IH (error_value g0 q) g1) as (A & B & C & D).
    + destruct Hs as (S1 & S2 & S3). repeat split; assumption.
    + apply Hk.
    + exact Hr.
    + split; [exact A | split; [exact B | split; [exact C|]]].
      rewrite D. simpl. rewrite last_call_acc.
      destruct (last_call (error_value g0) (k (error_value g0 q)) None);
        reflexivity.
  - destruct Hz as [Hq Hk].
    destruct (M_tool_in_range (model g) (tool_id g) q Hr) as (f & _ & HM).
    unfold bind. rewrite (callback_run g q _ Hq HM).
    match goal with
    | |- context [drive error callback k ?s] => set (g1 := s)
    end.
    destruct (IH g1) as (A & B & C & D).
    + destruct Hs as (S1 & S2 & S3). repeat split; assumption.
    + exact Hk.
    + exact Hr.
    + split; [exact A | split; [|split; [exact C|]]].
      * rewrite B, S_INR. unfold g1. cbn [slept]. lra.
      * rewrite D. simpl. rewrite last_call_acc.
        destruct (last_call (error_value g0) k None); reflexivity.
Qed.

(** X4. A BFGS run on [error] with the callback ends as the optimiser's own
    path says, followed with the values of [error]: it returns what the
    optimiser returns, a configuration of the model's size, and it raises
    only when the optimiser itself raises.  Neither [error] nor the
    callback ever stops it. *)
Theorem fmin_bfgs_result (fmin_bfgs : Config -> Optimizer) (g : Globals SE3) :
  sized (nq (model g)) (fmin_bfgs qguess) ->
  (tool_id g < List.length (frames (model g)))%nat ->
  fst (invgeom_fmin_bfgs fmin_bfgs g) =
    outcome_of (error_value g) (fmin_bfgs qguess) /\
  (forall qopt : Config,
     returns (invgeom_fmin_bfgs fmin_bfgs) g qopt ->
     List.length qopt = nq (model g)) /\
  (forall e : PyExc,
     raises (invgeom_fmin_bfgs fmin_bfgs) g e ->
     outcome_of (error_value g) (fmin_bfgs qguess) = Raise e).
Proof.
  intros Hz Hr. unfold invgeom_fmin_bfgs, returns, raises.
  destruct (drive_error_inv g (fmin_bfgs qguess) g (same_task_refl g) Hz Hr)
    as (A & _).
  rewrite A. split; [reflexivity | split].
  - intros qopt H. apply (outcome_sized _ _ _ _ Hz H).
  - intros e H. exact H.
Qed.

(** X5. Every iterate a BFGS run reports costs a tenth of a second of
    sleep, and when the run is over the viewer displays the last iterate
    reported (or what it displayed before, when there was none). *)
Theorem fmin_bfgs_clock_and_viewer (fmin_bfgs : Config -> Optimizer)
    (g : Globals SE3) :
  sized (nq (model g)) (fmin_bfgs qguess) ->
  (tool_id g < List.length (frames (model g)))%nat ->
  slept (snd (invgeom_fmin_bfgs fmin_bfgs g)) =
    slept g + INR (iterations (error_value g) (fmin_bfgs qguess)) * 1e-1 /\
  displayed (viz (snd (invgeom_fmin_bfgs fmin_bfgs g))) =
    last_iterate (error_value g) (fmin_bfgs qguess) (displayed (viz g)).
Proof.
  intros Hz Hr. unfold invgeom_fmin_bfgs.
  destruct (drive_error_inv g (fmin_bfgs qguess) g (same_task_refl g) Hz Hr)
    as (_ & B & C & _).
  split; assumption.
Qed.

(** X6. After a BFGS run the shared cache holds the placements at the last
    configuration handed to [error] or to the callback, which need not be
    the configuration the run returns; with no call at all the cache is
    as it was. *)
Theorem fmin_bfgs_cache (fmin_bfgs : Config -> Optimizer) (g : Globals SE3) :
  sized (nq (model g)) (fmin_bfgs qguess) ->
  (tool_id g < List.length (frames (model g)))%nat ->
  oMf (data (snd (invgeom_fmin_bfgs fmin_bfgs g))) =
    match last_call (error_value g) (fmin_bfgs qguess) None with
    | Some q => placements (model g) q
    | None => oMf (data g)
    end.
Proof.
  intros Hz Hr. unfold invgeom_fmin_bfgs.
  destruct (drive_error_inv g (fmin_bfgs qguess) g (same_task_refl g) Hz Hr)
    as (_ & _ & _ & D).
  exact D.
Qed.






(** X9. A second call of [callback] at the same configuration changes
    nothing but the clock: the cache, the displayed configuration and the
    transform of every viewer node are as the first call left them, and
    another tenth of a second has been slept. *)
Theorem callback_twice (g : Globals SE3) (q : Config) :
  List.length q = nq (model g) ->
  (tool_id g < List.length (frames (model g)))%nat ->
  fst (callback q (snd (callback q g))) = Ok tt /\
  data (snd (callback q (snd (callback q g)))) = data (snd (callback q g)) /\
  displayed (viz (snd (callback q (snd (callback q g))))) =
    displayed (viz (snd (callback q g))) /\
  (forall p : string,
     node_transform (viz (snd (callback q (snd (callback q g))))) p =
     node_transform (viz (snd (callback q g))) p) /\
  slept (snd (callback q (snd (callback q g)))) =
    slept (snd (callback q g)) + 1e-1.
Proof.
  intros Hq Hr.
  destruct (M_tool_in_range (model g) (tool_id g) q Hr) as (f & _ & HM).
  rewrite (callback_run g q _ Hq HM).
  cbn [snd].
  rewrite (callback_run _ q (placement_at f q)); [|exact Hq|exact HM].
  simpl. repeat split.
  intros p.
  destruct (String.eqb p "current"); [reflexivity|].
  destruct (String.eqb p "target"); reflexivity.
Qed.

End Runs.

(** ** The two objectives *)


Section Objectives.

Context {SE3 : Type} {pin : Pinocchio SE3} {cas : CasadiPinocchio SE3}.

Lemma cdata_oMf_length
    (den : cSE3 -> Config -> SE3) (mden : cMotion -> Config -> Motion)
    (D : Denotes pin cas den mden) (m : Model SE3) :
  List.length (cdata_oMf m) = List.length (frames m).
Proof.
  pose proof (den_fk pin cas den mden D m (repeat 0 (nq m))
                (repeat_length 0 (nq m))) as H.
  apply (f_equal (@List.length SE3)) in H.
  rewrite !length_map in H. exact H.
Qed.

(** X10. The symbolic residual can be built exactly when [error] can be
    evaluated: with the frame index inside the frame table the cell
    returns a function and writes nothing, and with the index past the
    table it raises [IndexError], at construction and not at the first
    evaluation. *)
Theorem error_tool_buildable
    (den : cSE3 -> Config -> SE3) (mden : cMotion -> Config -> Motion)
    (D : Denotes pin cas den mden) (g : Globals SE3) :
  ((tool_id g < List.length (frames (model g)))%nat ->
   exists etool : Config -> list R, error_tool g = (Ok etool, g)) /\
  ((List.length (frames (model g)) <= tool_id g)%nat ->
   error_tool g = (Raise IndexError, g)).
Proof.
  pose proof (cdata_oMf_length den mden D (model g)) as HL.
  unfold error_tool, bind, gets, getitem, ret, raise. simpl.
  split; intros H.
  - destruct (nth_error (cdata_oMf (model g)) (tool_id g)) as [P|] eqn:E.
    + eexists. reflexivity.
    + apply nth_error_None in E. lia.
  - assert (E : nth_error (cdata_oMf (model g)) (tool_id g) = None)
      by (apply nth_error_None; lia).
    rewrite E. reflexivity.
Qed.




End Objectives.

(** ** The target's rotation *)


(** ** The further properties at the gantry *)

Import BareGantry.


Lemma bare_tool_id : (List.length (frames (model g_bare)) <= tool_id g_bare)%nat.
Proof. exact (le_n 1). Qed.



Lemma error_outcomes_witness :
  error [] g0 = (Raise ValueError, g0) /\
  error q_reach g_bare =
    (Raise IndexError, set_data (mkData (placements (model g_bare) q_reach)) g_bare).
Proof.
  split.
  - apply (proj1 (@error_outcomes Vector3 Gantry.pin g0 [])).
    simpl. discriminate.
  - apply (proj1 (proj2 (@error_outcomes Vector3 Gantry.pin g_bare q_reach))).
    + reflexivity.
    + exact bare_tool_id.
Defined.

Lemma callback_outcomes_witness :
  callback [] g0 = (Raise ValueError, g0) /\
  callback q_reach g_bare =
    (Raise IndexError, set_data (mkData (placements (model g_bare) q_reach)) g_bare).
Proof.
  split.
  - apply (proj1 (@callback_outcomes Vector3 Gantry.pin g0 [])).
    simpl. discriminate.
  - apply (proj1 (proj2 (@callback_outcomes Vector3 Gantry.pin g_bare q_reach))).
    + reflexivity.
    + exact bare_tool_id.
Defined.


Lemma fmin_bfgs_result_witness :
  fst (invgeom_fmin_bfgs three_steps g0) =
  outcome_of (error_value g0) (three_steps qguess).
Proof.
  apply (@fmin_bfgs_result Vector3 Gantry.pin three_steps g0).
  - apply three_steps_sized. reflexivity.
  - exact gantry_tool_id.
Defined.

Lemma fmin_bfgs_clock_and_viewer_witness :
  slept (snd (invgeom_fmin_bfgs three_steps g0)) =
    slept g0 + INR (iterations (error_value g0) (three_steps qguess)) * 1e-1 /\
  displayed (viz (snd (invgeom_fmin_bfgs three_steps g0))) =
    last_iterate (error_value g0) (three_steps qguess) (displayed (viz g0)).
Proof.
  apply (@fmin_bfgs_clock_and_viewer Vector3 Gantry.pin three_steps g0).
  - apply three_steps_sized. reflexivity.
  - exact gantry_tool_id.
Defined.

Lemma fmin_bfgs_cache_witness :
  oMf (data (snd (invgeom_fmin_bfgs three_steps g0))) =
    match last_call (error_value g0) (three_steps qguess) None with
    | Some q => placements (model g0) q
    | None => oMf (data g0)
    end.
Proof.
  apply (@fmin_bfgs_cache Vector3 Gantry.pin three_steps g0).
  - apply three_steps_sized. reflexivity.
  - exact gantry_tool_id.
Defined.



Lemma callback_twice_witness :
  data (snd (callback qguess (snd (callback qguess g0)))) =
  data (snd (callback qguess g0)).
Proof.
  apply (@callback_twice Vector3 Gantry.pin g0 qguess).
  - reflexivity.
  - exact gantry_tool_id.
Defined.

Lemma error_tool_buildable_witness :
  (exists etool : Config -> list R, error_tool g0 = (Ok etool, g0)) /\
  error_tool g_bare = (Raise IndexError, g_bare).
Proof.
  split.
  - apply (proj1 (@error_tool_buildable Vector3 Gantry.pin Gantry.cas den mden
                    gantry_denotes g0)).
    exact gantry_tool_id.
  - apply (proj2 (@error_tool_buildable Vector3 Gantry.pin Gantry.cas den mden
                    gantry_denotes g_bare)).
    exact bare_tool_id.
Defined.


